(** * FlowCoordinator.run (TalkWithYourFiles/flow_coordinator.py)

    A shallow embedding of the coordination flow.  The collaborators
    (file handler factory, handlers, text processor, QA chain runner and
    the logging module) are external: [run] is written as a program that
    issues calls to them and continues on their answers.  An execution
    runs that program against an environment that answers every call from
    a world state and records the calls with their answers, in order. *)

From Stdlib Require Import String List Bool Arith Lia.
Import ListNotations.
Local Open Scope string_scope.
Local Open Scope list_scope.

Set Implicit Arguments.

(** ** Data *)

(** The uploaded file: the flow reads [file.type] and [file.name] and hands
    the file itself to the handler. *)
Record UploadedFile : Type := mkFile {
  name : string;
  type : string;
  content : string
}.

(** The two logging levels the flow uses. *)
Inductive Level : Type := WARNING | ERROR.

(** Python truthiness of the values the flow tests. *)
Definition truthy_str (s : string) : bool :=
  match s with EmptyString => false | String _ _ => true end.

Definition truthy_list {A} (l : list A) : bool :=
  match l with [] => false | _ :: _ => true end.

(** [files] is [None] or a list whose items may be [None]. *)
Definition Files : Type := option (list (option UploadedFile)).

Definition truthy_files (files : Files) : bool :=
  match files with Some l => truthy_list l | None => false end.

Definition items (files : Files) : list (option UploadedFile) :=
  match files with Some l => l | None => [] end.

(** The messages of the flow. *)
Definition msg_too_many : string := "Please upload a maximum of 3 files".

Definition msg_no_text_file (file : UploadedFile) : string :=
  ("No text could be extracted from " ++ name file ++
   ". Please ensure the file is not encrypted or corrupted.")%string.

Definition msg_no_text : string :=
  "No text could be extracted from the provided files. Please try again with different files.".

Definition msg_no_chunks : string :=
  "Couldn't split the text into chunks. Please try again with different text.".

Definition msg_no_embeddings : string :=
  "Couldn't create embeddings from the text. Please try again.".

Definition msg_no_docs : string :=
  "Couldn't find any relevant chunks for your question. Please try asking a different question.".

(** The texts of a list put one after the other. *)
Definition join (texts : list string) : string :=
  fold_right append "" texts.

(** [sub] occurs in [s]. *)
Definition contains (s sub : string) : Prop :=
  exists pre post, s = (pre ++ sub ++ post)%string.

Section Flow.

(** The collaborators' value types are opaque to the flow; of a knowledge
    base it only tests truthiness. *)
Variables Handler Chunk KnowledgeBase Doc : Type.
Variable truthy_kb : KnowledgeBase -> bool.

(** ** Calls and programs *)

(** A call to a collaborator, indexed by the type of its answer. *)
Inductive Call : Type -> Type :=
| get_file_handler (file_type : string) : Call Handler
| read_file (handler : Handler) (file : UploadedFile) : Call string
| split_text (text : string) : Call (list Chunk)
| create_embeddings (chunks : list Chunk) : Call KnowledgeBase
| get_relative_chunks (knowledge_base : KnowledgeBase) (question : string)
    : Call (list Doc)
| run_chain (docs : list Doc) (question : string) : Call string
| logging (level : Level) (message : string) : Call unit.

(** A function body: it goes on with a value, returns from the function,
    or calls a collaborator and continues on the answer. *)
Inductive Flow (A : Type) : Type :=
| Next (a : A)
| Return (v : string)
| Invoke (X : Type) (c : Call X) (k : X -> Flow A).

Arguments Next {A} a.
Arguments Return {A} v.
Arguments Invoke {A X} c k.

Fixpoint bind {A B} (m : Flow A) (f : A -> Flow B) : Flow B :=
  match m with
  | Next a => f a
  | Return v => Return v
  | Invoke c k => Invoke c (fun x => bind (k x) f)
  end.

Definition call {X} (c : Call X) : Flow X := Invoke c (fun x => Next x).

Notation "x <- m ;; k" := (bind m (fun x => k))
  (at level 61, m at next level, right associativity).
Notation "m ;; k" := (bind m (fun _ => k))
  (at level 61, right associativity).

(** [if cond: body] with nothing after [else]. *)
Definition when (cond : bool) (body : Flow unit) : Flow unit :=
  if cond then body else Next tt.

(** [for x in l: state = body x state], where the body may return from the
    function. *)
Fixpoint for_in {A S} (l : list A) (body : A -> S -> Flow S) (state : S)
  : Flow S :=
  match l with
  | [] => Next state
  | x :: rest => state' <- body x state ;; for_in rest body state'
  end.

(** ** The flow *)

(** Lines 62-69: the body of the loop over the files, on [combined_text]. *)
Definition read_one (file : option UploadedFile) (combined_text : string)
  : Flow string :=
  match file with
  | None => Next combined_text
  | Some file =>
      handler <- call (get_file_handler (type file)) ;;
      text <- call (read_file handler file) ;;
      if negb (truthy_str text) then
        call (logging ERROR (msg_no_text_file file)) ;;
        Return (msg_no_text_file file)
      else
        Next (combined_text ++ text)%string
  end.

(** Lines 55-90.  Reaching [Next tt] is falling off the end of the
    function. *)
Definition run (files : Files) (user_question : string) : Flow unit :=
  when (truthy_files files && (3 <? List.length (items files))%nat)
    (call (logging WARNING msg_too_many) ;;
     Return msg_too_many) ;;
  when (truthy_str user_question && truthy_files files)
    (combined_text <- for_in (items files) read_one "" ;;
     when (negb (truthy_str combined_text))
       (call (logging WARNING msg_no_text) ;;
        Return msg_no_text) ;;
     chunks <- call (split_text combined_text) ;;
     when (negb (truthy_list chunks))
       (call (logging WARNING msg_no_chunks) ;;
        Return msg_no_chunks) ;;
     knowledge_base <- call (create_embeddings chunks) ;;
     when (negb (truthy_kb knowledge_base))
       (call (logging WARNING msg_no_embeddings) ;;
        Return msg_no_embeddings) ;;
     docs <- call (get_relative_chunks knowledge_base user_question) ;;
     when (negb (truthy_list docs))
       (call (logging WARNING msg_no_docs) ;;
        Return msg_no_docs) ;;
     answer <- call (run_chain docs user_question) ;;
     Return answer).

(** ** Executions *)

(** A call together with the answer it got. *)
Inductive Event : Type :=
| EvGetFileHandler (file_type : string) (handler : Handler)
| EvReadFile (handler : Handler) (file : UploadedFile) (text : string)
| EvSplitText (text : string) (chunks : list Chunk)
| EvCreateEmbeddings (chunks : list Chunk) (knowledge_base : KnowledgeBase)
| EvGetRelativeChunks (knowledge_base : KnowledgeBase) (question : string)
    (docs : list Doc)
| EvRunChain (docs : list Doc) (question : string) (answer : string)
| EvLogging (level : Level) (message : string).

Definition event {X} (c : Call X) : X -> Event :=
  match c in Call X return X -> Event with
  | get_file_handler ty => fun h => EvGetFileHandler ty h
  | read_file h f => fun text => EvReadFile h f text
  | split_text text => fun chunks => EvSplitText text chunks
  | create_embeddings chunks => fun kb => EvCreateEmbeddings chunks kb
  | get_relative_chunks kb q => fun docs => EvGetRelativeChunks kb q docs
  | run_chain docs q => fun answer => EvRunChain docs q answer
  | logging level message => fun _ => EvLogging level message
  end.

(** How a function body ends: by falling off its end with a value, or by
    a [return]. *)
Inductive Exit (A : Type) : Type :=
| Fell (a : A)
| Returned (v : string).

Arguments Fell {A} a.
Arguments Returned {A} v.

Record Execution (W A : Type) : Type := mkExecution {
  exit : Exit A;
  world : W;
  trace : list Event
}.

(** What the caller of the function gets: Python's [None] when the body
    fell off its end. *)
Definition value {W A} (e : Execution W A) : option string :=
  match exit e with
  | Fell _ => None
  | Returned v => Some v
  end.

(** The collaborators: every call is answered from the current world and
    may change it. *)
Definition Env (W : Type) : Type := forall X, Call X -> W -> X * W.

Fixpoint exec {W A} (env : Env W) (m : Flow A) (w : W) : Execution W A :=
  match m with
  | Next a => mkExecution (Fell a) w []
  | Return v => mkExecution (Returned v) w []
  | Invoke c k =>
      let (x, w') := env _ c w in
      let e := exec env (k x) w' in
      mkExecution (exit e) (world e) (event c x :: trace e)
  end.

(** ** Observing a trace *)

(** Which collaborator function an event is a call of. *)
Inductive Callee : Type :=
| GetFileHandler | ReadFile | SplitText | CreateEmbeddings
| GetRelativeChunks | RunChain | Logging.

Definition callee (ev : Event) : Callee :=
  match ev with
  | EvGetFileHandler _ _ => GetFileHandler
  | EvReadFile _ _ _ => ReadFile
  | EvSplitText _ _ => SplitText
  | EvCreateEmbeddings _ _ => CreateEmbeddings
  | EvGetRelativeChunks _ _ _ => GetRelativeChunks
  | EvRunChain _ _ _ => RunChain
  | EvLogging _ _ => Logging
  end.

(** The function was called at least once in the trace. *)
Definition invoked (f : Callee) (tr : list Event) : Prop :=
  In f (map callee tr).

(** The files read and the text each read gave, in the order of the
    reads. *)
Fixpoint reads (tr : list Event) : list (UploadedFile * string) :=
  match tr with
  | [] => []
  | EvReadFile _ file text :: tr' => (file, text) :: reads tr'
  | _ :: tr' => reads tr'
  end.

(** The files of a list, without its [None] items, in the list's order. *)
Fixpoint present (l : list (option UploadedFile)) : list UploadedFile :=
  match l with
  | [] => []
  | Some file :: l' => file :: present l'
  | None :: l' => present l'
  end.

Definition files_read (tr : list Event) : list UploadedFile :=
  map fst (reads tr).

Definition texts_read (tr : list Event) : list string :=
  map snd (reads tr).

(** The events of the loop over the files: looking a handler up, a read,
    and the error logged for a file without text. *)
Definition of_loop (ev : Event) : bool :=
  match ev with
  | EvGetFileHandler _ _ | EvReadFile _ _ _ | EvLogging ERROR _ => true
  | _ => false
  end.

(** A read that gave text, or a handler look-up. *)
Definition fruitful (ev : Event) : Prop :=
  match ev with
  | EvGetFileHandler _ _ => True
  | EvReadFile _ _ text => text <> ""
  | _ => False
  end.

(** ** Deterministic collaborators *)

(** The answer to a call does not depend on the world it is made in. *)
Definition deterministic {W} (env : Env W) : Prop :=
  forall X (c : Call X) (w1 w2 : W), fst (env X c w1) = fst (env X c w2).

(** Collaborators that are functions of their arguments. *)
Record Collaborators : Type := mkCollaborators {
  co_get_file_handler : string -> Handler;
  co_read_file : Handler -> UploadedFile -> string;
  co_split_text : string -> list Chunk;
  co_create_embeddings : list Chunk -> KnowledgeBase;
  co_get_relative_chunks : KnowledgeBase -> string -> list Doc;
  co_run_chain : list Doc -> string -> string
}.

Definition answer (co : Collaborators) {X} (c : Call X) : X :=
  match c in Call X return X with
  | get_file_handler ty => co_get_file_handler co ty
  | read_file h f => co_read_file co h f
  | split_text text => co_split_text co text
  | create_embeddings chunks => co_create_embeddings co chunks
  | get_relative_chunks kb q => co_get_relative_chunks co kb q
  | run_chain docs q => co_run_chain co docs q
  | logging _ _ => tt
  end.

(** Their environment: the world counts the calls made so far. *)
Definition pure_env (co : Collaborators) : Env nat :=
  fun X c w => (answer co c, S w).

(** ** The shape of an execution *)

(** What the loop over the files can do from [combined_text]: its trace
    and how it ends.  Every file that is not [None] is looked up and
    read; an empty text ends the function, any other text is appended. *)
Inductive Extracts
  : list (option UploadedFile) -> string -> list Event -> Exit string -> Prop :=
| Extracts_done combined_text :
    Extracts [] combined_text [] (Fell combined_text)
| Extracts_none l combined_text tr x :
    Extracts l combined_text tr x ->
    Extracts (None :: l) combined_text tr x
| Extracts_empty file l combined_text handler :
    Extracts (Some file :: l) combined_text
      [EvGetFileHandler (type file) handler;
       EvReadFile handler file "";
       EvLogging ERROR (msg_no_text_file file)]
      (Returned (msg_no_text_file file))
| Extracts_text file l combined_text handler text tr x :
    text <> "" ->
    Extracts l (combined_text ++ text)%string tr x ->
    Extracts (Some file :: l) combined_text
      (EvGetFileHandler (type file) handler
       :: EvReadFile handler file text :: tr) x.

(** The pipeline is entered: at most 3 files, a question and files. *)
Definition entered (files : Files) (user_question : string) : Prop :=
  List.length (items files) <= 3 /\
  truthy_str user_question = true /\ truthy_files files = true.

(** What [run] can do: one case per exit of the function. *)
Inductive Runs (files : Files) (user_question : string)
  : list Event -> Exit unit -> Prop :=
| Runs_too_many :
    truthy_files files = true -> 3 < List.length (items files) ->
    Runs files user_question
      [EvLogging WARNING msg_too_many] (Returned msg_too_many)
| Runs_fell :
    List.length (items files) <= 3 ->
    truthy_str user_question = false \/ truthy_files files = false ->
    Runs files user_question [] (Fell tt)
| Runs_no_text_file tr v :
    entered files user_question ->
    Extracts (items files) "" tr (Returned v) ->
    Runs files user_question tr (Returned v)
| Runs_no_text tr :
    entered files user_question ->
    Extracts (items files) "" tr (Fell "") ->
    Runs files user_question
      (tr ++ [EvLogging WARNING msg_no_text]) (Returned msg_no_text)
| Runs_no_chunks tr text :
    entered files user_question ->
    Extracts (items files) "" tr (Fell text) -> text <> "" ->
    Runs files user_question
      (tr ++ [EvSplitText text []; EvLogging WARNING msg_no_chunks])
      (Returned msg_no_chunks)
| Runs_no_embeddings tr text chunks kb :
    entered files user_question ->
    Extracts (items files) "" tr (Fell text) -> text <> "" ->
    chunks <> [] -> truthy_kb kb = false ->
    Runs files user_question
      (tr ++ [EvSplitText text chunks; EvCreateEmbeddings chunks kb;
              EvLogging WARNING msg_no_embeddings])
      (Returned msg_no_embeddings)
| Runs_no_docs tr text chunks kb :
    entered files user_question ->
    Extracts (items files) "" tr (Fell text) -> text <> "" ->
    chunks <> [] -> truthy_kb kb = true ->
    Runs files user_question
      (tr ++ [EvSplitText text chunks; EvCreateEmbeddings chunks kb;
              EvGetRelativeChunks kb user_question [];
              EvLogging WARNING msg_no_docs])
      (Returned msg_no_docs)
| Runs_answer tr text chunks kb docs answer :
    entered files user_question ->
    Extracts (items files) "" tr (Fell text) -> text <> "" ->
    chunks <> [] -> truthy_kb kb = true -> docs <> [] ->
    Runs files user_question
      (tr ++ [EvSplitText text chunks; EvCreateEmbeddings chunks kb;
              EvGetRelativeChunks kb user_question docs;
              EvRunChain docs user_question answer])
      (Returned answer).

End Flow.

Arguments Next {Handler Chunk KnowledgeBase Doc A} a.
Arguments Return {Handler Chunk KnowledgeBase Doc A} v.
Arguments Invoke {Handler Chunk KnowledgeBase Doc A X} c k.
Arguments get_file_handler {Handler Chunk KnowledgeBase Doc} file_type.
Arguments read_file {Handler Chunk KnowledgeBase Doc} handler file.
Arguments split_text {Handler Chunk KnowledgeBase Doc} text.
Arguments create_embeddings {Handler Chunk KnowledgeBase Doc} chunks.
Arguments get_relative_chunks {Handler Chunk KnowledgeBase Doc}
  knowledge_base question.
Arguments run_chain {Handler Chunk KnowledgeBase Doc} docs question.
Arguments logging {Handler Chunk KnowledgeBase Doc} level message.
Arguments EvGetFileHandler {Handler Chunk KnowledgeBase Doc} file_type handler.
Arguments EvReadFile {Handler Chunk KnowledgeBase Doc} handler file text.
Arguments EvSplitText {Handler Chunk KnowledgeBase Doc} text chunks.
Arguments EvCreateEmbeddings {Handler Chunk KnowledgeBase Doc}
  chunks knowledge_base.
Arguments EvGetRelativeChunks {Handler Chunk KnowledgeBase Doc}
  knowledge_base question docs.
Arguments EvRunChain {Handler Chunk KnowledgeBase Doc} docs question answer.
Arguments EvLogging {Handler Chunk KnowledgeBase Doc} level message.
Arguments Fell {A} a.
Arguments Returned {A} v.
Arguments run {Handler Chunk KnowledgeBase Doc} truthy_kb files user_question.
Arguments read_one {Handler Chunk KnowledgeBase Doc} file combined_text.
Arguments Runs {Handler Chunk KnowledgeBase Doc} truthy_kb files user_question.
Arguments mkCollaborators {Handler Chunk KnowledgeBase Doc}.
Arguments callee {Handler Chunk KnowledgeBase Doc} ev.
Arguments of_loop {Handler Chunk KnowledgeBase Doc} ev.
Arguments fruitful {Handler Chunk KnowledgeBase Doc} ev.

(** ** A concrete set of collaborators

    Two text files and a scan without text; the splitter knows the text of
    the two files together, the knowledge base is the list of chunks, and
    retrieval finds both chunks for the one question it knows. *)
Module Scenario.

Definition alpha : UploadedFile := mkFile "alpha.txt" "text/plain" "A".
Definition beta : UploadedFile := mkFile "beta.txt" "text/plain" "B".
Definition scan : UploadedFile := mkFile "scan.pdf" "application/pdf" "".

Definition read (handler : string) (file : UploadedFile) : string :=
  if (name file =? "alpha.txt")%string then "Alpha text."
  else if (name file =? "beta.txt")%string then "Beta text."
  else "".

Definition split (text : string) : list string :=
  if (text =? "Alpha text.Beta text.")%string
  then ["Alpha text."; "Beta text."] else [].

Definition relative_chunks (kb : list string) (question : string)
  : list string :=
  if (question =? "What is Alpha?")%string
  then ["Alpha text."; "Beta text."] else [].

Definition collaborators : Collaborators string string (list string) string :=
  mkCollaborators (fun file_type => file_type) read split (fun chunks => chunks)
    relative_chunks (fun _ _ => "Alpha is a thing.").

(** The same, with an embedding step that yields nothing. *)
Definition no_embeddings : Collaborators string string (list string) string :=
  mkCollaborators (fun file_type => file_type) read split (fun _ => [])
    relative_chunks (fun _ _ => "Alpha is a thing.").

Definition truthy_kb (kb : list string) : bool := truthy_list kb.

End Scenario.

(** ** Counting calls and the question-free part of a trace *)

Definition Callee_eq_dec (a b : Callee) : {a = b} + {a <> b}.
Proof. decide equality. Defined.

Section Observations.

Variables Handler Chunk KnowledgeBase Doc : Type.

(** How many times a function was called in the trace. *)
Definition calls (f : Callee) (tr : list (Event Handler Chunk KnowledgeBase Doc))
  : nat :=
  count_occ Callee_eq_dec (map callee tr) f.

(** The calls that are not given the question: handler look-ups, reads, the
    split and the embedding. *)
Definition is_upstream (ev : Event Handler Chunk KnowledgeBase Doc) : bool :=
  match callee ev with
  | GetFileHandler | ReadFile | SplitText | CreateEmbeddings => true
  | GetRelativeChunks | RunChain | Logging => false
  end.

Definition upstream (tr : list (Event Handler Chunk KnowledgeBase Doc))
  : list (Event Handler Chunk KnowledgeBase Doc) :=
  filter is_upstream tr.

End Observations.

Arguments is_upstream {Handler Chunk KnowledgeBase Doc} ev.

(** * Properties *)

Unset Implicit Arguments.

Section Properties.

Context {Handler Chunk KnowledgeBase Doc : Type}.
Variable truthy_kb : KnowledgeBase -> bool.

Abbreviation Ev := (Event Handler Chunk KnowledgeBase Doc).
Abbreviation Environment := (Env Handler Chunk KnowledgeBase Doc).
Abbreviation Body := (Flow Handler Chunk KnowledgeBase Doc).

(** ** Strings and traces *)

Lemma append_assoc (a b c : string) :
  ((a ++ b) ++ c = a ++ (b ++ c))%string.
Proof. induction a as [| x a IH]; simpl; [reflexivity | now rewrite IH]. Qed.

Lemma append_nil_r (a : string) : (a ++ "")%string = a.
Proof. induction a as [| x a IH]; simpl; [reflexivity | now rewrite IH]. Qed.

Lemma append_nonempty_r (a b : string) : b <> "" -> (a ++ b)%string <> "".
Proof. destruct a; simpl; [tauto | discriminate]. Qed.

Lemma contains_file_name (file : UploadedFile) :
  contains (msg_no_text_file file) (name file).
Proof. unfold contains, msg_no_text_file. eauto. Qed.

Lemma reads_app (tr1 tr2 : list Ev) :
  reads (tr1 ++ tr2) = reads tr1 ++ reads tr2.
Proof.
  induction tr1 as [| ev tr1 IH]; simpl; [reflexivity |].
  destruct ev; simpl; now rewrite ?IH.
Qed.

Lemma invoked_app (f : Callee) (tr1 tr2 : list Ev) :
  invoked f (tr1 ++ tr2) <-> invoked f tr1 \/ invoked f tr2.
Proof. unfold invoked. rewrite map_app. apply in_app_iff. Qed.

Lemma invoked_of_loop (f : Callee) (tr : list Ev) :
  Forall (fun ev => of_loop ev = true) tr -> invoked f tr ->
  f = GetFileHandler \/ f = ReadFile \/ f = Logging.
Proof.
  unfold invoked. intros Hall Hin. apply in_map_iff in Hin.
  destruct Hin as [ev [Hf Hev]]. rewrite Forall_forall in Hall.
  specialize (Hall ev Hev). destruct ev; simpl in *; subst; auto;
    discriminate.
Qed.

(** ** The loop over the files *)

Lemma extracts_of_loop l combined_text (tr : list Ev) x :
  Extracts l combined_text tr x -> Forall (fun ev => of_loop ev = true) tr.
Proof. induction 1; repeat constructor; assumption. Qed.

(** When the loop ends normally, every file of the list was read, in the
    list's order, every read gave text, and the result is the text it
    started from followed by the texts read. *)
Lemma extracts_fell l combined_text (tr : list Ev) result :
  Extracts l combined_text tr (Fell result) ->
  Forall fruitful tr /\
  files_read tr = present l /\
  result = (combined_text ++ join (texts_read tr))%string.
Proof.
  unfold files_read, texts_read.
  intro H. remember (Fell result) as x eqn:Hx. revert result Hx.
  induction H as [acc | l acc tr x H IH | file l acc handler
                 | file l acc handler text tr x Htext H IH];
    intros result Hx; try discriminate.
  - injection Hx as <-. simpl. now rewrite append_nil_r.
  - simpl. now apply IH.
  - destruct (IH result Hx) as [Hall [Hfiles Hres]]. simpl.
    repeat split.
    + repeat constructor; simpl; assumption.
    + now rewrite Hfiles.
    + now rewrite Hres, append_assoc.
Qed.

(** When the loop returns, it does so at the first file without text:
    the files before it were read and gave text, and nothing follows the
    empty read but the error logged. *)
Lemma extracts_returned l combined_text (tr : list Ev) v :
  Extracts l combined_text tr (Returned v) ->
  exists l1 file l2 handler pre,
    l = l1 ++ Some file :: l2 /\
    tr = pre ++ [EvReadFile handler file "";
                 EvLogging ERROR (msg_no_text_file file)] /\
    v = msg_no_text_file file /\
    Forall fruitful pre /\
    files_read pre = present l1.
Proof.
  unfold files_read.
  intro H. remember (Returned v) as x eqn:Hx. revert v Hx.
  induction H as [acc | l acc tr x H IH | file l acc handler
                 | file l acc handler text tr x Htext H IH];
    intros v Hx; try discriminate.
  - destruct (IH v Hx) as (l1 & f & l2 & h & pre & -> & -> & -> & Hall & Hfiles).
    exists (None :: l1), f, l2, h, pre. simpl. auto.
  - injection Hx as <-.
    exists [], file, l, handler, [EvGetFileHandler (type file) handler].
    simpl. repeat split. repeat constructor.
  - destruct (IH v Hx) as (l1 & f & l2 & h & pre & -> & -> & -> & Hall & Hfiles).
    exists (Some file :: l1), f, l2, h,
      (EvGetFileHandler (type file) handler
       :: EvReadFile handler file text :: pre).
    simpl. repeat split.
    + repeat constructor; simpl; assumption.
    + now rewrite Hfiles.
Qed.

(** The loop ends with an empty text only if it read nothing. *)
Lemma extracts_fell_empty l combined_text (tr : list Ev) result :
  Extracts l combined_text tr (Fell result) ->
  (result = combined_text /\ present l = [] /\ tr = []) \/
  (result <> "" /\ present l <> []).
Proof.
  intro H. remember (Fell result) as x eqn:Hx. revert result Hx.
  induction H as [acc | l acc tr x H IH | file l acc handler
                 | file l acc handler text tr x Htext H IH];
    intros result Hx; try discriminate.
  - injection Hx as <-. auto.
  - simpl. now apply IH.
  - right. simpl. split; [| discriminate].
    destruct (IH result Hx) as [[-> _] | [Hne _]]; [| exact Hne].
    now apply append_nonempty_r.
Qed.

Lemma present_app l1 l2 : present (l1 ++ l2) = present l1 ++ present l2.
Proof.
  induction l1 as [| [file |] l1 IH]; simpl; [reflexivity | | exact IH].
  now rewrite IH.
Qed.

Lemma present_nil l : present l = [] <-> Forall (fun x => x = None) l.
Proof.
  induction l as [| [file |] l IH]; simpl.
  - split; auto.
  - split; [discriminate |]. intro H. inversion H. discriminate.
  - rewrite IH. split; intro H; [now constructor | now inversion H].
Qed.

Section Executions.

Context {W : Type}.
Variable env : Environment W.

Lemma truthy_str_true (s : string) : truthy_str s = true <-> s <> "".
Proof. destruct s; simpl; split; congruence. Qed.


Lemma truthy_list_true {A} (l : list A) : truthy_list l = true <-> l <> [].
Proof. destruct l; simpl; split; congruence. Qed.

Lemma truthy_list_false {A} (l : list A) : truthy_list l = false <-> l = [].
Proof. destruct l; simpl; split; congruence. Qed.

(** An execution of [m ;; f] is one of [m], followed by one of [f] when
    [m] did not return. *)
Lemma exec_bind {A B} (m : Body A) (f : A -> Body B) (w : W) :
  exec env (bind m f) w =
  let e := exec env m w in
  match exit e with
  | Fell a =>
      let e' := exec env (f a) (world e) in
      mkExecution (exit e') (world e') (trace e ++ trace e')
  | Returned v => mkExecution (Returned v) (world e) (trace e)
  end.
Proof.
  revert w. induction m as [a | v | X c k IH]; intro w; simpl.
  - now destruct (exec env (f a) w).
  - reflexivity.
  - destruct (env X c w) as [x w']. simpl. rewrite IH. simpl.
    now destruct (exit (exec env (k x) w')).
Qed.

Lemma exec_call {X} (c : Call Handler Chunk KnowledgeBase Doc X) (w : W) :
  exec env (call c) w =
  mkExecution (Fell (fst (env X c w))) (snd (env X c w))
    [event c (fst (env X c w))].
Proof. unfold call. simpl. now destruct (env X c w). Qed.

(** The loop over the files runs as [Extracts] says. *)
Lemma exec_for_in_read_one (l : list (option UploadedFile)) :
  forall (combined_text : string) (w : W),
    let e := exec env (for_in l read_one combined_text) w in
    Extracts l combined_text (trace e) (exit e).
Proof.
  induction l as [| [file |] l IH]; intros combined_text w; simpl.
  - constructor.
  - destruct (env _ (get_file_handler (type file)) w) as [handler w1].
    simpl.
    destruct (env _ (read_file handler file) w1) as [text w2]. simpl.
    destruct text as [| a text]; simpl.
    + destruct (env _ (logging ERROR (msg_no_text_file file)) w2)
        as [[] w3].
      simpl. constructor.
    + constructor; [discriminate |]. apply IH.
  - constructor. apply IH.
Qed.

Lemma items_short (files : Files) :
  truthy_files files && (3 <? List.length (items files))%nat = false ->
  List.length (items files) <= 3.
Proof.
  intro H. apply andb_false_iff in H. destruct H as [H | H].
  - destruct files as [[| x l] |]; simpl in *; try discriminate; lia.
  - apply Nat.ltb_ge in H. exact H.
Qed.

(** [run] runs as [Runs] says. *)
Lemma exec_run (files : Files) (user_question : string) (w : W) :
  let e := exec env (run truthy_kb files user_question) w in
  Runs truthy_kb files user_question (trace e) (exit e).
Proof.
  unfold run.
  destruct (truthy_files files && (3 <? List.length (items files))%nat)
    eqn:Hmany; simpl.
  { apply andb_true_iff in Hmany. destruct Hmany as [Hf Hlen].
    apply Nat.ltb_lt in Hlen.
    destruct (env _ (logging WARNING msg_too_many) w) as [[] w1]. simpl.
    now constructor. }
  apply items_short in Hmany.
  destruct (truthy_str user_question && truthy_files files) eqn:Hgo; simpl.
  2:{ apply Runs_fell; [exact Hmany |].
      now apply andb_false_iff in Hgo. }
  apply andb_true_iff in Hgo.
  assert (Hin : entered files user_question) by (unfold entered; tauto).
  rewrite exec_bind.
  pose proof (exec_for_in_read_one (items files) "" w) as Hloop.
  destruct (exec env (for_in (items files) read_one "") w)
    as [[text | v] w1 tr]; simpl in *.
  2:{ now apply Runs_no_text_file. }
  destruct text as [| a text]; simpl.
  { destruct (env _ (logging WARNING msg_no_text) w1) as [[] w2]. simpl.
    now apply Runs_no_text. }
  assert (Htext : String a text <> "") by discriminate.
  destruct (env _ (split_text (String a text)) w1) as [chunks w2]. simpl.
  destruct chunks as [| chunk chunks]; simpl.
  { destruct (env _ (logging WARNING msg_no_chunks) w2) as [[] w3]. simpl.
    now apply Runs_no_chunks. }
  assert (Hchunks : chunk :: chunks <> []) by discriminate.
  destruct (env _ (create_embeddings (chunk :: chunks)) w2) as [kb w3].
  simpl.
  destruct (truthy_kb kb) eqn:Hkb; simpl.
  2:{ destruct (env _ (logging WARNING msg_no_embeddings) w3) as [[] w4].
      simpl. now apply Runs_no_embeddings. }
  destruct (env _ (get_relative_chunks kb user_question) w3) as [docs w4].
  simpl.
  destruct docs as [| doc docs]; simpl.
  { destruct (env _ (logging WARNING msg_no_docs) w4) as [[] w5]. simpl.
    now apply Runs_no_docs. }
  destruct (env _ (run_chain (doc :: docs) user_question) w4)
    as [answer w5].
  simpl. apply Runs_answer; try assumption; discriminate.
Qed.

(** ** Proof steps shared by the properties of [run] *)

(** Settle where an event of the trace can sit. *)
Ltac in_trace :=
  repeat match goal with
  | H : In _ (_ ++ _) |- _ => apply in_app_or in H; destruct H as [H | H]
  | H : In _ (_ :: _) |- _ => destruct H as [H | H]
  | H : In _ [] |- _ => destruct H
  | H : False |- _ => destruct H
  | H : _ = _ \/ _ |- _ => destruct H as [H | H]
  | H : In ?ev ?tr, HE : Extracts _ _ ?tr _ |- _ =>
      exfalso; apply extracts_of_loop in HE;
      rewrite Forall_forall in HE; specialize (HE _ H);
      simpl in HE; discriminate HE
  | H : @eq (Event _ _ _ _) _ _ |- _ =>
      first [ discriminate H
            | cbv in H; discriminate H
            | injection H as H; subst
            | injection H; intros; subst; clear H ]
  end.

(** No later stage is called from inside the loop over the files. *)
Ltac not_invoked :=
  repeat match goal with
  | |- ~ invoked _ _ => intro
  | H : invoked _ (_ ++ _) |- _ =>
      apply invoked_app in H; destruct H as [H | H]
  | H : invoked _ ?tr, HE : Extracts _ _ ?tr _ |- _ =>
      exfalso; apply extracts_of_loop in HE;
      apply (invoked_of_loop _ _ HE) in H;
      destruct H as [H | [H | H]]; discriminate H
  | H : invoked _ _ |- _ =>
      unfold invoked in H; simpl in H; intuition discriminate
  end.

(** Case analysis on how [run] went. *)
Ltac run_cases files q w :=
  let HR := fresh "HR" in
  pose proof (exec_run files q w) as HR; cbv zeta in HR;
  unfold value;
  destruct (exec env (run truthy_kb files q) w) as [? ? ?];
  simpl in *; inversion HR; subst; clear HR.

(** ** Properties of [run] *)

(** C2: for every list of more than 3 files and every question, [run]
    returns "Please upload a maximum of 3 files" and reads no file: the
    only call it makes is the warning it logs, so neither
    [get_file_handler] nor [read_file] is invoked. *)
Theorem run_too_many_files
  (l : list (option UploadedFile)) (user_question : string) (w : W) :
  3 < List.length l ->
  let e := exec env (run truthy_kb (Some l) user_question) w in
  value e = Some "Please upload a maximum of 3 files" /\
  trace e = [EvLogging WARNING "Please upload a maximum of 3 files"] /\
  ~ invoked GetFileHandler (trace e) /\
  ~ invoked ReadFile (trace e).
Proof.
  intros Hlen e. subst e.
  run_cases (Some l) user_question w; simpl in *; try lia;
    try match goal with
        | H : entered _ _ |- _ => destruct H as [H _]; simpl in H; lia
        end.
  repeat split; not_invoked.
Qed.

(** C4: when [files] is [None] or empty, or the question is empty, and
    there are at most 3 files, [run] falls off its end: the caller gets
    [None], and no collaborator is called (the trace is empty and the
    world is unchanged). *)
Theorem run_falls_through
  (files : Files) (user_question : string) (w : W) :
  files = None \/ files = Some [] \/ user_question = "" ->
  List.length (items files) <= 3 ->
  let e := exec env (run truthy_kb files user_question) w in
  value e = None /\ trace e = [] /\ world e = w.
Proof.
  intros Hskip Hlen e. subst e. unfold run.
  replace (truthy_files files && (3 <? List.length (items files))%nat)
    with false
    by (symmetry; apply andb_false_iff; right; now apply Nat.ltb_ge).
  replace (truthy_str user_question && truthy_files files) with false.
  - simpl. auto.
  - symmetry. apply andb_false_iff.
    destruct Hskip as [-> | [-> | ->]]; simpl; auto.
Qed.

(** C7: whenever [split_text] returns no chunks, [run] returns "Couldn't
    split the text into chunks. Please try again with different text.";
    the text it was called on was not empty, and none of
    [create_embeddings], [get_relative_chunks] and [run_chain] is
    invoked. *)
Theorem run_no_chunks
  (files : Files) (user_question : string) (w : W) :
  let e := exec env (run truthy_kb files user_question) w in
  forall text : string,
    In (EvSplitText text []) (trace e) ->
    value e =
      Some "Couldn't split the text into chunks. Please try again with different text." /\
    text <> "" /\
    ~ invoked CreateEmbeddings (trace e) /\
    ~ invoked GetRelativeChunks (trace e) /\
    ~ invoked RunChain (trace e).
Proof.
  intros e text Hin. subst e.
  run_cases files user_question w; in_trace; try congruence.
  repeat split; try assumption; not_invoked.
Qed.

(** C5: whenever [create_embeddings] returns a falsy knowledge base,
    [run] returns "Couldn't create embeddings from the text. Please try
    again." and [get_relative_chunks] is never invoked (nor is
    [run_chain]). *)
Theorem run_no_embeddings
  (files : Files) (user_question : string) (w : W) :
  let e := exec env (run truthy_kb files user_question) w in
  forall (chunks : list Chunk) (knowledge_base : KnowledgeBase),
    In (EvCreateEmbeddings chunks knowledge_base) (trace e) ->
    truthy_kb knowledge_base = false ->
    value e =
      Some "Couldn't create embeddings from the text. Please try again." /\
    ~ invoked GetRelativeChunks (trace e) /\
    ~ invoked RunChain (trace e).
Proof.
  intros e chunks kb Hin Hkb. subst e.
  run_cases files user_question w; in_trace; try congruence.
  repeat split; not_invoked.
Qed.

(** C6: whenever [get_relative_chunks] returns no chunks, [run] returns
    "Couldn't find any relevant chunks for your question. Please try
    asking a different question." and [run_chain] is never invoked; the
    call was made on a truthy knowledge base and on the question given
    to [run]. *)
Theorem run_no_relevant_chunks
  (files : Files) (user_question : string) (w : W) :
  let e := exec env (run truthy_kb files user_question) w in
  forall (knowledge_base : KnowledgeBase) (question : string),
    In (EvGetRelativeChunks knowledge_base question []) (trace e) ->
    value e =
      Some "Couldn't find any relevant chunks for your question. Please try asking a different question." /\
    truthy_kb knowledge_base = true /\
    question = user_question /\
    ~ invoked RunChain (trace e).
Proof.
  intros e kb question Hin. subst e.
  run_cases files user_question w; in_trace; try congruence.
  repeat split; try assumption; not_invoked.
Qed.

(** C3: for a non-empty question and a list of 1 to 3 files, if the read
    of a file returns empty text, [run] returns "No text could be
    extracted from {file.name}. Please ensure the file is not encrypted
    or corrupted.", which contains the file's name; the empty read is
    the last one (the files read are those of the list up to that file,
    so no later file is read), only the error logged follows it, and no
    later stage is invoked: the text of the earlier files goes nowhere. *)
Theorem run_file_without_text
  (l : list (option UploadedFile)) (user_question : string) (w : W) :
  user_question <> "" ->
  1 <= List.length l <= 3 ->
  let e := exec env (run truthy_kb (Some l) user_question) w in
  forall (handler : Handler) (file : UploadedFile),
    In (EvReadFile handler file "") (trace e) ->
    value e = Some (msg_no_text_file file) /\
    contains (msg_no_text_file file) (name file) /\
    (exists l1 l2 pre,
        l = l1 ++ Some file :: l2 /\
        trace e = pre ++ [EvReadFile handler file "";
                          EvLogging ERROR (msg_no_text_file file)] /\
        files_read (trace e) = present l1 ++ [file]) /\
    ~ invoked SplitText (trace e) /\
    ~ invoked CreateEmbeddings (trace e) /\
    ~ invoked GetRelativeChunks (trace e) /\
    ~ invoked RunChain (trace e).
Proof.
  intros Hq Hlen e handler file Hin. subst e.
  assert (Hfruitful :
            forall l0 acc (tr : list Ev) result,
              Extracts l0 acc tr (Fell result) ->
              In (EvReadFile handler file "") tr -> False).
  { intros l0 acc tr result HE Hr. apply extracts_fell in HE.
    destruct HE as [Hall _]. rewrite Forall_forall in Hall.
    specialize (Hall _ Hr). simpl in Hall. congruence. }
  run_cases (Some l) user_question w; simpl in *;
    repeat match goal with
    | H : In _ (_ ++ _) |- _ =>
        apply in_app_or in H; destruct H as [H | H]
    end;
    try (exfalso; eapply Hfruitful; eassumption);
    in_trace.
  match goal with
  | HE : Extracts _ _ _ (Returned _) |- _ =>
      pose proof (extracts_of_loop _ _ _ _ HE) as Hloop;
      apply extracts_returned in HE;
      destruct HE as (l1 & f & l2 & h & pre & -> & -> & -> & Hall & Hfiles)
  end.
  apply in_app_or in Hin. destruct Hin as [Hin | Hin].
  { rewrite Forall_forall in Hall. specialize (Hall _ Hin).
    simpl in Hall. congruence. }
  in_trace.
  repeat split.
  - apply contains_file_name.
  - exists l1, l2, pre. repeat split.
    unfold files_read in *. rewrite reads_app, map_app, Hfiles.
    reflexivity.
  - intro Hi. apply (invoked_of_loop _ _ Hloop) in Hi.
    destruct Hi as [Hi | [Hi | Hi]]; discriminate Hi.
  - intro Hi. apply (invoked_of_loop _ _ Hloop) in Hi.
    destruct Hi as [Hi | [Hi | Hi]]; discriminate Hi.
  - intro Hi. apply (invoked_of_loop _ _ Hloop) in Hi.
    destruct Hi as [Hi | [Hi | Hi]]; discriminate Hi.
  - intro Hi. apply (invoked_of_loop _ _ Hloop) in Hi.
    destruct Hi as [Hi | [Hi | Hi]]; discriminate Hi.
Qed.

(** C8: for a non-empty question and a list of 1 to 3 files, when every
    read gives text, the files read are the files of the list in the
    list's order, any text passed to [split_text] is the texts read put
    one after the other in that order, and [split_text] is indeed called
    on it as soon as the list has a file that is not [None]. *)
Theorem run_combined_text_in_upload_order
  (l : list (option UploadedFile)) (user_question : string) (w : W) :
  user_question <> "" ->
  1 <= List.length l <= 3 ->
  let e := exec env (run truthy_kb (Some l) user_question) w in
  (forall handler file text,
      In (EvReadFile handler file text) (trace e) -> text <> "") ->
  files_read (trace e) = present l /\
  (forall text chunks,
      In (EvSplitText text chunks) (trace e) ->
      text = join (texts_read (trace e))) /\
  (present l <> [] ->
   exists chunks,
     In (EvSplitText (join (texts_read (trace e))) chunks) (trace e)).
Proof.
  intros Hq Hlen e Hreads. subst e.
  apply truthy_str_true in Hq.
  run_cases (Some l) user_question w; simpl in *; try lia.
  { (* falling through needs no question or no files *)
    destruct l; simpl in *; [lia | intuition congruence]. }
  { (* a read without text contradicts the assumption *)
    match goal with
    | HE : Extracts _ _ _ (Returned _) |- _ =>
        apply extracts_returned in HE;
        destruct HE as (l1 & f & l2 & h & pre & -> & -> & -> & _)
    end.
    exfalso. apply (Hreads h f ""); [| reflexivity].
    apply in_or_app. right. now left. }
  all: match goal with
       | HE : Extracts _ _ _ (Fell _) |- _ =>
           pose proof (extracts_fell_empty _ _ _ _ HE) as Hempty;
           pose proof (extracts_fell _ _ _ _ HE) as (_ & Hfiles & Htext)
       end;
       unfold files_read, texts_read in *;
       rewrite reads_app; simpl; rewrite app_nil_r; simpl in Htext;
       (split; [exact Hfiles |]); split;
       [ intros text' chunks' Hin; in_trace; congruence
       | intros Hpresent ].
  - destruct Hempty as [(_ & Hnil & _) | [Hne _]]; congruence.
  - eexists. apply in_or_app. right. left. now rewrite <- Htext.
  - eexists. apply in_or_app. right. left. now rewrite <- Htext.
  - eexists. apply in_or_app. right. left. now rewrite <- Htext.
  - eexists. apply in_or_app. right. left. now rewrite <- Htext.
Qed.

(** The answers of deterministic collaborators fix how a body runs,
    whatever the world it starts in. *)
Lemma exec_deterministic {A} (m : Body A) :
  deterministic env ->
  forall w1 w2 : W,
    exit (exec env m w1) = exit (exec env m w2) /\
    trace (exec env m w1) = trace (exec env m w2).
Proof.
  intro Hdet. induction m as [a | v | X c k IH]; intros w1 w2; simpl;
    try (split; reflexivity).
  specialize (Hdet X c w1 w2).
  destruct (env X c w1) as [x1 w1'], (env X c w2) as [x2 w2'].
  simpl in *. subst x2.
  destruct (IH x1 w1' w2') as [Hexit Htrace].
  now rewrite Hexit, Htrace.
Qed.

(** C9: with deterministic collaborators, a second call of [run] on the
    same files and question, made in the world the first call left,
    returns what the first call returned (and makes the same calls with
    the same answers). *)
Theorem run_idempotent
  (files : Files) (user_question : string) (w : W) :
  deterministic env ->
  let first := exec env (run truthy_kb files user_question) w in
  let second := exec env (run truthy_kb files user_question) (world first) in
  value second = value first /\ trace second = trace first.
Proof.
  intros Hdet first second. subst first second. unfold value.
  destruct (exec_deterministic (run truthy_kb files user_question) Hdet
              (world (exec env (run truthy_kb files user_question) w)) w)
    as [Hexit Htrace].
  now rewrite Hexit, Htrace.
Qed.

Lemma entered_iff (files : Files) (user_question : string) :
  entered files user_question <->
  user_question <> "" /\
  exists l, files = Some l /\ l <> [] /\ List.length l <= 3.
Proof.
  unfold entered. rewrite truthy_str_true. split.
  - intros (Hlen & Hq & Hf). split; [exact Hq |].
    destruct files as [l |]; [| discriminate]. exists l. simpl in *.
    apply truthy_list_true in Hf. auto.
  - intros (Hq & l & -> & Hl & Hlen). simpl.
    apply truthy_list_true in Hl. auto.
Qed.

Lemma present_in l file : In (Some file) l -> present l <> [].
Proof.
  induction l as [| [f |] l IH]; simpl; [tauto | discriminate |].
  intros [H | H]; [discriminate | auto].
Qed.

(** The warning of the generic branch is logged exactly when the
    pipeline is entered on a list of [None] items. *)
Lemma no_text_logged_iff (files : Files) (user_question : string) (w : W) :
  let e := exec env (run truthy_kb files user_question) w in
  In (EvLogging WARNING msg_no_text) (trace e) <->
  entered files user_question /\ present (items files) = [].
Proof.
  intro e. subst e.
  run_cases files user_question w; simpl in *; split;
    try (intro Hin; in_trace; fail);
    try (intros [(Hlen & Hq & Hf) Hnone]; try lia;
         intuition congruence).
  - intros [_ Hnone].
    match goal with
    | HE : Extracts _ _ _ (Returned _) |- _ =>
        apply extracts_returned in HE;
        destruct HE as (l1 & f & l2 & h & pre & Hl & _)
    end.
    rewrite Hl, present_app in Hnone. simpl in Hnone.
    now destruct (present l1).
  - intros _. split; [assumption |].
    match goal with
    | HE : Extracts _ _ _ (Fell _) |- _ =>
        apply extracts_fell_empty in HE;
        destruct HE as [(_ & Hnil & _) | [Hne _]]; congruence
    end.
  - intros _. apply in_or_app. right. now left.
  - intros [_ Hnone].
    match goal with
    | HE : Extracts _ _ _ (Fell _) |- _ =>
        apply extracts_fell_empty in HE;
        destruct HE as [(Heq & _ & _) | [_ Hne]]; congruence
    end.
  - intros [_ Hnone].
    match goal with
    | HE : Extracts _ _ _ (Fell _) |- _ =>
        apply extracts_fell_empty in HE;
        destruct HE as [(Heq & _ & _) | [_ Hne]]; congruence
    end.
  - intros [_ Hnone].
    match goal with
    | HE : Extracts _ _ _ (Fell _) |- _ =>
        apply extracts_fell_empty in HE;
        destruct HE as [(Heq & _ & _) | [_ Hne]]; congruence
    end.
  - intros [_ Hnone].
    match goal with
    | HE : Extracts _ _ _ (Fell _) |- _ =>
        apply extracts_fell_empty in HE;
        destruct HE as [(Heq & _ & _) | [_ Hne]]; congruence
    end.
Qed.

Lemma no_text_logged_value (files : Files) (user_question : string) (w : W) :
  let e := exec env (run truthy_kb files user_question) w in
  In (EvLogging WARNING msg_no_text) (trace e) ->
  value e = Some msg_no_text.
Proof.
  intros e Hin. subst e.
  run_cases files user_question w; in_trace; reflexivity.
Qed.

(** Once the pipeline is entered on a list with a file, the loop either
    returns the message of a file of the list or hands a non-empty text
    to [split_text]. *)
Lemma entered_with_file (files : Files) (user_question : string) (w : W) :
  entered files user_question ->
  present (items files) <> [] ->
  let e := exec env (run truthy_kb files user_question) w in
  (exists file,
      In (Some file) (items files) /\
      value e = Some (msg_no_text_file file)) \/
  (exists text chunks,
      text <> "" /\ In (EvSplitText text chunks) (trace e)).
Proof.
  intros Hin Hfile e. subst e. pose proof Hin as (Hlen & Hq & Hf).
  run_cases files user_question w; simpl in *;
    try lia; try (intuition congruence).
  - left.
    match goal with
    | HE : Extracts _ _ _ (Returned _) |- _ =>
        apply extracts_returned in HE;
        destruct HE as (l1 & f & l2 & h & pre & Hl & _ & -> & _)
    end.
    exists f. split; [| reflexivity]. rewrite Hl.
    apply in_or_app. right. now left.
  - match goal with
    | HE : Extracts _ _ _ (Fell _) |- _ =>
        apply extracts_fell_empty in HE;
        destruct HE as [(_ & Hnil & _) | [Hne _]]; congruence
    end.
  - right. eexists _, _. split; [eassumption |].
    apply in_or_app. right. now left.
  - right. eexists _, _. split; [eassumption |].
    apply in_or_app. right. now left.
  - right. eexists _, _. split; [eassumption |].
    apply in_or_app. right. now left.
  - right. eexists _, _. split; [eassumption |].
    apply in_or_app. right. now left.
Qed.

(** C10: the branch that logs and returns "No text could be extracted
    from the provided files. Please try again with different files." is
    taken exactly when the question is not empty and [files] is a list
    of 1 to 3 items that are all [None].  When some item of the list is
    a file, the branch is not taken: with a question and at most 3
    files, [run] then returns the message of a file of the list or calls
    [split_text] on a non-empty text. *)
Theorem run_no_text_branch
  (files : Files) (user_question : string) (w : W) :
  let e := exec env (run truthy_kb files user_question) w in
  let branch :=
    In (EvLogging WARNING
          "No text could be extracted from the provided files. Please try again with different files.")
       (trace e) in
  (branch <->
   user_question <> "" /\
   exists l, files = Some l /\ l <> [] /\ List.length l <= 3 /\
             Forall (fun item => item = None) l) /\
  (branch ->
   value e =
     Some "No text could be extracted from the provided files. Please try again with different files.") /\
  (forall file,
      In (Some file) (items files) ->
      ~ branch /\
      (user_question <> "" -> List.length (items files) <= 3 ->
       (exists file',
           In (Some file') (items files) /\
           value e = Some (msg_no_text_file file')) \/
       (exists text chunks,
           text <> "" /\ In (EvSplitText text chunks) (trace e)))).
Proof.
  intros e branch. subst e branch. cbv zeta.
  pose proof (no_text_logged_iff files user_question w) as Hiff.
  cbv zeta in Hiff. change msg_no_text with
    "No text could be extracted from the provided files. Please try again with different files."
    in Hiff.
  split; [split | split].
  - intro Hb. apply Hiff in Hb. destruct Hb as [Hin Hnone].
    apply entered_iff in Hin. destruct Hin as (Hq & l & -> & Hl & Hlen).
    split; [exact Hq |].
    exists l. repeat split; try assumption. now apply present_nil.
  - intros (Hq & l & -> & Hl & Hlen & Hnone). apply Hiff. split.
    + apply entered_iff. eauto.
    + now apply present_nil.
  - apply (no_text_logged_value files user_question w).
  - intros file Hfile. split.
    + intro Hb. apply Hiff in Hb. destruct Hb as [_ Hnone].
      now apply (present_in _ _ Hfile).
    + intros Hq Hlen.
      apply (entered_with_file files user_question w).
      * apply entered_iff. split; [exact Hq |].
        destruct files as [l |]; simpl in *; [| tauto].
        exists l. repeat split; [| exact Hlen].
        intros ->. destruct Hfile.
      * now apply (present_in _ _ Hfile).
Qed.

(** On the success path the last two calls are the retrieval and the
    QA chain on what the retrieval gave, and [run] returns the answer
    of the chain. *)
Lemma success_path
  (l : list (option UploadedFile)) (user_question : string) (w : W) :
  user_question <> "" ->
  1 <= List.length l <= 3 ->
  (exists file, In (Some file) l) ->
  let e := exec env (run truthy_kb (Some l) user_question) w in
  (forall handler file text,
      In (EvReadFile handler file text) (trace e) -> text <> "") ->
  (forall text chunks,
      In (EvSplitText text chunks) (trace e) -> chunks <> []) ->
  (forall chunks knowledge_base,
      In (EvCreateEmbeddings chunks knowledge_base) (trace e) ->
      truthy_kb knowledge_base = true) ->
  (forall knowledge_base question docs,
      In (EvGetRelativeChunks knowledge_base question docs) (trace e) ->
      docs <> []) ->
  exists pre knowledge_base docs answer,
    trace e = pre ++ [EvGetRelativeChunks knowledge_base user_question docs;
                      EvRunChain docs user_question answer] /\
    ~ invoked RunChain pre /\
    value e = Some answer.
Proof.
  intros Hq Hlen [file Hfile] e Hreads Hsplit Hembed Hdocs. subst e.
  apply present_in in Hfile. apply truthy_str_true in Hq.
  run_cases (Some l) user_question w; simpl in *; try lia.
  - destruct l; simpl in *; [lia | intuition congruence].
  - match goal with
    | HE : Extracts _ _ _ (Returned _) |- _ =>
        apply extracts_returned in HE;
        destruct HE as (l1 & f & l2 & h & pre & -> & -> & -> & _)
    end.
    exfalso. apply (Hreads h f ""); [| reflexivity].
    apply in_or_app. right. now left.
  - match goal with
    | HE : Extracts _ _ _ (Fell _) |- _ =>
        apply extracts_fell_empty in HE;
        destruct HE as [(_ & Hnil & _) | [Hne _]]; congruence
    end.
  - exfalso. apply (Hsplit text []); [| reflexivity].
    apply in_or_app. right. now left.
  - exfalso. assert (truthy_kb kb = true); [| congruence].
    apply (Hembed chunks). apply in_or_app. right. right. now left.
  - exfalso. apply (Hdocs kb user_question []); [| reflexivity].
    apply in_or_app. right. right. right. now left.
  - exists (tr ++ [EvSplitText text chunks; EvCreateEmbeddings chunks kb]),
      kb, docs, answer0.
    rewrite <- app_assoc. simpl. repeat split. not_invoked.
Qed.

(** ** Further properties of [run] *)

Lemma fruitful_invoked (f : Callee) (tr : list Ev) :
  Forall fruitful tr -> invoked f tr -> f = GetFileHandler \/ f = ReadFile.
Proof.
  unfold invoked. intros Hall Hin. apply in_map_iff in Hin.
  destruct Hin as [ev [Hf Hev]]. rewrite Forall_forall in Hall.
  specialize (Hall ev Hev). destruct ev; simpl in *; subst; tauto.
Qed.

(** A loop that ended normally called nothing but look-ups and reads. *)
Lemma extracts_fell_invoked l acc (tr : list Ev) result (f : Callee) :
  Extracts l acc tr (Fell result) -> invoked f tr ->
  f = GetFileHandler \/ f = ReadFile.
Proof.
  intros HE. apply extracts_fell in HE. destruct HE as [Hall _].
  now apply fruitful_invoked.
Qed.

(** How an execution of [run] ends: with no call at all, with a logged
    message that is returned, or with the answer of the chain. *)
Lemma runs_shape (files : Files) (user_question : string)
      (tr : list Ev) (x : Exit unit) :
  Runs truthy_kb files user_question tr x ->
  (tr = [] /\ x = Fell tt) \/
  (exists pre level message,
      tr = pre ++ [EvLogging level message] /\ x = Returned message /\
      ~ invoked Logging pre /\ ~ invoked RunChain pre) \/
  (exists pre docs answer,
      tr = pre ++ [EvRunChain docs user_question answer] /\
      x = Returned answer /\
      ~ invoked Logging pre /\ ~ invoked RunChain pre).
Proof.
  assert (Hfell : forall l acc (tr0 : list Ev) result (tail : list Ev) f,
             Extracts l acc tr0 (Fell result) ->
             f <> GetFileHandler -> f <> ReadFile ->
             ~ invoked f tail -> ~ invoked f (tr0 ++ tail)).
  { intros l acc tr0 result tail f HE H1 H2 Ht Hi.
    apply invoked_app in Hi. destruct Hi as [Hi | Hi]; [| tauto].
    destruct (extracts_fell_invoked _ _ _ _ _ HE Hi); congruence. }
  assert (Hno : forall (f : Callee) (tail : list Ev),
             existsb (fun ev => if Callee_eq_dec (callee ev) f
                                then true else false) tail = false ->
             ~ invoked f tail).
  { intros f tail Hb Hi. unfold invoked in Hi. apply in_map_iff in Hi.
    destruct Hi as [ev [Hf Hev]].
    assert (existsb (fun ev => if Callee_eq_dec (callee ev) f
                               then true else false) tail = true);
      [| congruence].
    apply existsb_exists. exists ev. split; [exact Hev |].
    now destruct (Callee_eq_dec (callee ev) f). }
  intro HR. inversion HR; subst; clear HR.
  - right. left. exists [], WARNING, msg_too_many. simpl.
    repeat split; intros [].
  - now left.
  - right. left.
    match goal with
    | HE : Extracts _ _ _ (Returned _) |- _ =>
        apply extracts_returned in HE;
        destruct HE as (l1 & f & l2 & h & pre & _ & -> & -> & Hall & _)
    end.
    exists (pre ++ [EvReadFile h f ""]), ERROR, (msg_no_text_file f).
    rewrite <- app_assoc. simpl. repeat split.
    + intro Hi. apply invoked_app in Hi. destruct Hi as [Hi | Hi].
      * destruct (fruitful_invoked _ _ Hall Hi); discriminate.
      * unfold invoked in Hi. simpl in Hi. intuition discriminate.
    + intro Hi. apply invoked_app in Hi. destruct Hi as [Hi | Hi].
      * destruct (fruitful_invoked _ _ Hall Hi); discriminate.
      * unfold invoked in Hi. simpl in Hi. intuition discriminate.
  - right. left. exists tr0, WARNING, msg_no_text.
    repeat split.
    + rewrite <- (app_nil_r tr0).
      eapply Hfell; try eassumption; try discriminate. intros [].
    + rewrite <- (app_nil_r tr0).
      eapply Hfell; try eassumption; try discriminate. intros [].
  - right. left.
    exists (tr0 ++ [EvSplitText text []]), WARNING, msg_no_chunks.
    rewrite <- app_assoc. simpl. repeat split.
    + eapply Hfell; try eassumption; try discriminate.
      now apply Hno.
    + eapply Hfell; try eassumption; try discriminate.
      now apply Hno.
  - right. left.
    exists (tr0 ++ [EvSplitText text chunks; EvCreateEmbeddings chunks kb]),
      WARNING, msg_no_embeddings.
    rewrite <- app_assoc. simpl. repeat split.
    + eapply Hfell; try eassumption; try discriminate.
      now apply Hno.
    + eapply Hfell; try eassumption; try discriminate.
      now apply Hno.
  - right. left.
    exists (tr0 ++ [EvSplitText text chunks; EvCreateEmbeddings chunks kb;
                    EvGetRelativeChunks kb user_question []]),
      WARNING, msg_no_docs.
    rewrite <- app_assoc. simpl. repeat split.
    + eapply Hfell; try eassumption; try discriminate.
      now apply Hno.
    + eapply Hfell; try eassumption; try discriminate.
      now apply Hno.
  - right. right.
    exists (tr0 ++ [EvSplitText text chunks; EvCreateEmbeddings chunks kb;
                    EvGetRelativeChunks kb user_question docs]),
      docs, answer0.
    rewrite <- app_assoc. simpl. repeat split.
    + eapply Hfell; try eassumption; try discriminate.
      now apply Hno.
    + eapply Hfell; try eassumption; try discriminate.
      now apply Hno.
Qed.

Lemma exec_run_shape (files : Files) (user_question : string) (w : W) :
  let e := exec env (run truthy_kb files user_question) w in
  (trace e = [] /\ value e = None) \/
  (exists pre level message,
      trace e = pre ++ [EvLogging level message] /\
      value e = Some message /\
      ~ invoked Logging pre /\ ~ invoked RunChain pre) \/
  (exists pre docs answer,
      trace e = pre ++ [EvRunChain docs user_question answer] /\
      value e = Some answer /\
      ~ invoked Logging pre /\ ~ invoked RunChain pre).
Proof.
  intro e. subst e. unfold value.
  destruct (runs_shape _ _ _ _ (exec_run files user_question w))
    as [[Htr Hx] | [(pre & level & m & Htr & Hx & H1 & H2)
                   | (pre & docs & a & Htr & Hx & H1 & H2)]];
    rewrite Hx.
  - now left.
  - right. left. exists pre, level, m. auto.
  - right. right. exists pre, docs, a. auto.
Qed.


(** X2: whatever [run] logs is the last call it makes, it logs nothing
    before it, and the message logged is the string it returns. *)
Theorem run_logs_what_it_returns
  (files : Files) (user_question : string) (w : W) :
  let e := exec env (run truthy_kb files user_question) w in
  forall (level : Level) (message : string),
    In (EvLogging level message) (trace e) ->
    exists pre,
      trace e = pre ++ [EvLogging level message] /\
      ~ invoked Logging pre /\
      value e = Some message.
Proof.
  intros e level message Hin.
  destruct (exec_run_shape files user_question w)
    as [[Htr _] | [(pre & level' & m & Htr & Hval & Hlog & _)
                  | (pre & docs & a & Htr & _ & Hlog & _)]];
    fold e in Htr; rewrite Htr in Hin.
  - destruct Hin.
  - apply in_app_or in Hin. destruct Hin as [Hin | [Hin | []]].
    + exfalso. apply Hlog. unfold invoked.
      change Logging with (callee (EvLogging (Handler:=Handler) (Chunk:=Chunk)
                                     (KnowledgeBase:=KnowledgeBase) (Doc:=Doc)
                                     level message)).
      now apply in_map.
    + injection Hin as -> ->. exists pre. auto.
  - apply in_app_or in Hin. destruct Hin as [Hin | [Hin | []]].
    + exfalso. apply Hlog. unfold invoked.
      change Logging with (callee (EvLogging (Handler:=Handler) (Chunk:=Chunk)
                                     (KnowledgeBase:=KnowledgeBase) (Doc:=Doc)
                                     level message)).
      now apply in_map.
    + discriminate Hin.
Qed.

(** X3: a string that [run] returns without logging it is the answer of
    [run_chain], called last, once, on the question given to [run]. *)
Theorem run_unlogged_return_is_answer
  (files : Files) (user_question : string) (w : W) :
  let e := exec env (run truthy_kb files user_question) w in
  forall v : string,
    value e = Some v ->
    ~ invoked Logging (trace e) ->
    exists pre docs,
      trace e = pre ++ [EvRunChain docs user_question v] /\
      ~ invoked RunChain pre.
Proof.
  intros e v Hval Hnolog.
  destruct (exec_run_shape files user_question w)
    as [[_ Hnone] | [(pre & level' & m & Htr & _ & _ & _)
                    | (pre & docs & a & Htr & Hval' & _ & Hchain)]];
    fold e in Hnone || fold e in Htr.
  - congruence.
  - exfalso. apply Hnolog. rewrite Htr. apply invoked_app. right.
    unfold invoked. simpl. auto.
  - fold e in Hval'. rewrite Hval in Hval'. injection Hval' as ->.
    exists pre, docs. auto.
Qed.

(** X4: the strings [run] can return are the five fixed messages, the
    message naming a file of the list, and the answer [run_chain] gave. *)
Theorem run_returns_message_or_answer
  (files : Files) (user_question : string) (w : W) :
  let e := exec env (run truthy_kb files user_question) w in
  forall v : string,
    value e = Some v ->
    v = "Please upload a maximum of 3 files" \/
    (exists file, In (Some file) (items files) /\ v = msg_no_text_file file) \/
    v = "No text could be extracted from the provided files. Please try again with different files." \/
    v = "Couldn't split the text into chunks. Please try again with different text." \/
    v = "Couldn't create embeddings from the text. Please try again." \/
    v = "Couldn't find any relevant chunks for your question. Please try asking a different question." \/
    (exists docs, In (EvRunChain docs user_question v) (trace e)).
Proof.
  intros e v Hval. subst e. revert Hval.
  run_cases files user_question w; intro Hval;
    try discriminate; injection Hval as <-; auto 10.
  - right. left.
    match goal with
    | HE : Extracts _ _ _ (Returned _) |- _ =>
        apply extracts_returned in HE;
        destruct HE as (l1 & f & l2 & h & pre & Hl & _ & -> & _)
    end.
    exists f. split; [| reflexivity]. rewrite Hl.
    apply in_or_app. right. now left.
  - do 6 right. exists docs. apply in_or_app. right. simpl. auto.
Qed.

(** X5: an error is logged exactly when a read returned empty text, and the
    error names the file of that read; every other message is a warning. *)
Theorem run_logs_error_iff_empty_read
  (files : Files) (user_question : string) (w : W) :
  let e := exec env (run truthy_kb files user_question) w in
  forall message : string,
    In (EvLogging ERROR message) (trace e) <->
    exists handler file,
      In (EvReadFile handler file "") (trace e) /\
      message = msg_no_text_file file.
Proof.
  intros e message. subst e.
  assert (Hfell : forall l acc (tr : list Ev) result (ev : Ev),
             Extracts l acc tr (Fell result) -> In ev tr -> fruitful ev).
  { intros l acc tr result ev HE Hin. apply extracts_fell in HE.
    destruct HE as [Hall _]. rewrite Forall_forall in Hall. auto. }
  run_cases files user_question w; simpl in *; split;
    try (intros (h & f & Hin & Hm));
    try intro Hin;
    repeat match goal with
           | H : In _ (_ ++ _) |- _ =>
               apply in_app_or in H; destruct H as [H | H]
           end;
    try (exfalso;
         match goal with
         | HE : Extracts _ _ _ (Fell _), H : In _ _ |- _ =>
             apply (Hfell _ _ _ _ _ HE) in H; simpl in H; congruence
         end);
    in_trace.
  - match goal with
    | HE : Extracts _ _ _ (Returned _) |- _ =>
        apply extracts_returned in HE;
        destruct HE as (l1 & f & l2 & h & pre & _ & -> & _ & Hall & _)
    end.
    apply in_app_or in Hin. destruct Hin as [Hin | Hin].
    + rewrite Forall_forall in Hall. destruct (Hall _ Hin).
    + in_trace. exists h, f. split; [| reflexivity].
      apply in_or_app. right. now left.
  - match goal with
    | HE : Extracts _ _ _ (Returned _) |- _ =>
        apply extracts_returned in HE;
        destruct HE as (l1 & f' & l2 & h' & pre & _ & -> & _ & Hall & _)
    end.
    apply in_app_or in Hin. destruct Hin as [Hin | Hin].
    + rewrite Forall_forall in Hall. specialize (Hall _ Hin).
      simpl in Hall. congruence.
    + in_trace. apply in_or_app. right. right. now left.
Qed.

(** X6: every stage is given what the stage before it returned, and only
    when that was not empty: [create_embeddings] gets the non-empty chunks
    of [split_text], [get_relative_chunks] gets the truthy knowledge base of
    [create_embeddings] and the question of [run], and [run_chain] gets the
    non-empty docs of [get_relative_chunks] and the same question. *)
Theorem run_stages_chain
  (files : Files) (user_question : string) (w : W) :
  let e := exec env (run truthy_kb files user_question) w in
  (forall text chunks,
      In (EvSplitText text chunks) (trace e) -> text <> "") /\
  (forall chunks knowledge_base,
      In (EvCreateEmbeddings chunks knowledge_base) (trace e) ->
      chunks <> [] /\ exists text, In (EvSplitText text chunks) (trace e)) /\
  (forall knowledge_base question docs,
      In (EvGetRelativeChunks knowledge_base question docs) (trace e) ->
      question = user_question /\ truthy_kb knowledge_base = true /\
      exists chunks, In (EvCreateEmbeddings chunks knowledge_base) (trace e)) /\
  (forall docs question answer,
      In (EvRunChain docs question answer) (trace e) ->
      question = user_question /\ docs <> [] /\
      exists knowledge_base,
        In (EvGetRelativeChunks knowledge_base user_question docs) (trace e)).
Proof.
  intro e. subst e.
  run_cases files user_question w;
    (split; [| split; [| split]]); intros; in_trace;
    repeat split; try assumption;
    eexists; apply in_or_app; right; simpl; eauto 6.
Qed.

Lemma calls_app (f : Callee) (tr1 tr2 : list Ev) :
  calls f (tr1 ++ tr2) = calls f tr1 + calls f tr2.
Proof. unfold calls. rewrite map_app. apply count_occ_app. Qed.

Lemma calls_not_invoked (f : Callee) (tr : list Ev) :
  ~ invoked f tr -> calls f tr = 0.
Proof. unfold calls, invoked. apply count_occ_not_In. Qed.

(** X7: in one execution of [run], each of [split_text],
    [create_embeddings], [get_relative_chunks], [run_chain] and the logging
    is called at most once. *)
Theorem run_calls_stage_at_most_once
  (files : Files) (user_question : string) (w : W) (f : Callee) :
  f <> GetFileHandler -> f <> ReadFile ->
  calls f (trace (exec env (run truthy_kb files user_question) w)) <= 1.
Proof.
  intros Hget Hread.
  assert (Hfell : forall l acc (tr : list Ev) result,
             Extracts l acc tr (Fell result) -> calls f tr = 0).
  { intros l acc tr result HE. apply calls_not_invoked. intro Hi.
    destruct (extracts_fell_invoked _ _ _ _ _ HE Hi); congruence. }
  run_cases files user_question w.
  - destruct f; try congruence; unfold calls; simpl; lia.
  - unfold calls. simpl. lia.
  - match goal with
    | HE : Extracts _ _ _ (Returned _) |- _ =>
        apply extracts_returned in HE;
        destruct HE as (l1 & file & l2 & h & pre & _ & -> & _ & Hall & _)
    end.
    rewrite calls_app, (calls_not_invoked f pre).
    + destruct f; try congruence; unfold calls; simpl; lia.
    + intro Hi. destruct (fruitful_invoked _ _ Hall Hi); congruence.
  - rewrite calls_app, (Hfell _ _ _ _ H0).
    destruct f; try congruence; unfold calls; simpl; lia.
  - rewrite calls_app, (Hfell _ _ _ _ H0).
    destruct f; try congruence; unfold calls; simpl; lia.
  - rewrite calls_app, (Hfell _ _ _ _ H0).
    destruct f; try congruence; unfold calls; simpl; lia.
  - rewrite calls_app, (Hfell _ _ _ _ H0).
    destruct f; try congruence; unfold calls; simpl; lia.
  - rewrite calls_app, (Hfell _ _ _ _ H0).
    destruct f; try congruence; unfold calls; simpl; lia.
Qed.

(** The files the loop read are the first files of the list. *)
Lemma extracts_prefix l acc (tr : list Ev) x :
  Extracts l acc tr x ->
  exists rest, present l = files_read tr ++ rest.
Proof.
  unfold files_read.
  induction 1 as [acc | l acc tr x H IH | file l acc handler
                 | file l acc handler text tr x Htext H IH]; simpl.
  - now exists [].
  - exact IH.
  - now exists (present l).
  - destruct IH as [rest ->]. now exists rest.
Qed.

Lemma present_length l : List.length (present l) <= List.length l.
Proof. induction l as [| [file |] l IH]; simpl; lia. Qed.

(** X8: [run] reads the files of the list in the list's order, without
    skipping or repeating one: the files read are a prefix of the files of
    the list, so at most 3 files are ever read. *)
Theorem run_reads_prefix_of_files
  (files : Files) (user_question : string) (w : W) :
  let e := exec env (run truthy_kb files user_question) w in
  (exists rest, present (items files) = files_read (trace e) ++ rest) /\
  List.length (files_read (trace e)) <= 3.
Proof.
  intro e. subst e.
  assert (Hbound : forall (tr : list Ev) x,
             entered files user_question ->
             Extracts (items files) "" tr x ->
             (exists rest, present (items files) = files_read tr ++ rest) /\
             List.length (files_read tr) <= 3).
  { intros tr x (Hlen & _) HE. pose proof (extracts_prefix _ _ _ _ HE) as Hp.
    split; [exact Hp |]. destruct Hp as [rest Hp].
    pose proof (present_length (items files)) as Hpl.
    rewrite Hp, length_app in Hpl. lia. }
  run_cases files user_question w; unfold files_read in *;
    rewrite ?reads_app; simpl; rewrite ?app_nil_r;
    try (eapply Hbound; eassumption).
  - split; [| lia]. now exists (present (items files)).
  - split; [| lia]. now exists (present (items files)).
Qed.

(** Every read of the loop comes right after the look-up of the handler
    for the type of the file read, and is made with the handler found. *)
Lemma extracts_lookup l acc (tr : list Ev) x handler file text :
  Extracts l acc tr x ->
  In (EvReadFile handler file text) tr ->
  exists pre post,
    tr = pre ++ EvGetFileHandler (type file) handler
             :: EvReadFile handler file text :: post.
Proof.
  induction 1 as [acc | l acc tr x H IH | file' l acc handler'
                 | file' l acc handler' text' tr x Htext H IH];
    intro Hin.
  - destruct Hin.
  - auto.
  - in_trace. now exists [], [EvLogging ERROR (msg_no_text_file file)].
  - destruct Hin as [Hin | [Hin | Hin]].
    + discriminate Hin.
    + injection Hin as -> -> ->. now exists [], tr.
    + destruct (IH Hin) as (pre & post & ->).
      now exists (EvGetFileHandler (type file') handler'
                  :: EvReadFile handler' file' text' :: pre), post.
Qed.

(** X9: every file is read with the handler that [get_file_handler] has
    just returned for the type of that file. *)
Theorem run_reads_with_handler_of_type
  (files : Files) (user_question : string) (w : W) :
  let e := exec env (run truthy_kb files user_question) w in
  forall handler file text,
    In (EvReadFile handler file text) (trace e) ->
    exists pre post,
      trace e = pre ++ EvGetFileHandler (type file) handler
                    :: EvReadFile handler file text :: post.
Proof.
  intros e handler file text Hin. subst e. revert Hin.
  run_cases files user_question w; intro Hin;
    repeat match goal with
           | H : In _ (_ ++ _) |- _ =>
               apply in_app_or in H; destruct H as [H | H]
           end;
    try match goal with
        | HE : Extracts _ _ ?tr _, H : In _ ?tr |- _ =>
            destruct (extracts_lookup _ _ _ _ _ _ _ HE H) as (pre & post & ->);
            rewrite <- ?app_assoc; simpl; eauto
        end;
    in_trace.
Qed.

(** The loop runs on a list as on its files alone. *)
Lemma exec_for_in_present (l : list (option UploadedFile)) :
  forall (combined_text : string) (w : W),
    exec env (for_in l read_one combined_text) w =
    exec env (for_in (map Some (present l)) read_one combined_text) w.
Proof.
  induction l as [| [file |] l IH]; intros combined_text w.
  - reflexivity.
  - change (for_in (Some file :: l) read_one combined_text)
      with (bind (read_one (Some file) combined_text)
                 (fun s => for_in l (@read_one Handler Chunk KnowledgeBase Doc) s)).
    change (for_in (map Some (present (Some file :: l))) read_one combined_text)
      with (bind (read_one (Some file) combined_text)
                 (fun s => for_in (map Some (present l))
                             (@read_one Handler Chunk KnowledgeBase Doc) s)).
    rewrite !exec_bind. cbv zeta.
    destruct (exit (exec env (read_one (Some file) combined_text) w));
      [| reflexivity].
    now rewrite IH.
  - exact (IH combined_text w).
Qed.

Lemma present_map_length l :
  List.length (map Some (present l)) <= List.length l.
Proof. rewrite length_map. apply present_length. Qed.

(** X10: [None] items in a list of at most 3 items that has a file change
    nothing: [run] makes the same calls and returns the same value as on
    the list of the files alone. *)
Theorem run_skips_none
  (l : list (option UploadedFile)) (user_question : string) (w : W) :
  List.length l <= 3 ->
  present l <> [] ->
  exec env (run truthy_kb (Some l) user_question) w =
  exec env (run truthy_kb (Some (map Some (present l))) user_question) w.
Proof.
  intros Hlen Hfile. pose proof (present_map_length l) as Hlen'.
  unfold run.
  assert (Hl : truthy_files (Some l) = true).
  { destruct l; simpl in *; congruence. }
  assert (Hp : truthy_files (Some (map Some (present l))) = true).
  { destruct (present l); simpl in *; congruence. }
  rewrite Hl, Hp.
  replace (3 <? List.length (items (Some l)))%nat with false
    by (symmetry; apply Nat.ltb_ge; exact Hlen).
  replace (3 <? List.length (items (Some (map Some (present l)))))%nat
    with false
    by (symmetry; apply Nat.ltb_ge; simpl; lia).
  destruct (truthy_str user_question); [| reflexivity].
  cbn [andb when bind items]. rewrite !exec_bind.
  now rewrite exec_for_in_present.
Qed.

Lemma upstream_app (tr1 tr2 : list Ev) :
  upstream (tr1 ++ tr2) = upstream tr1 ++ upstream tr2.
Proof. apply filter_app. Qed.

(** X11: the question, once it is not empty, has no part in the look-ups,
    the reads, the split and the embedding: from the same world, [run] makes
    the same such calls, with the same answers, for any two non-empty
    questions. *)
Theorem run_upstream_ignores_question
  (files : Files) (question1 question2 : string) (w : W) :
  question1 <> "" -> question2 <> "" ->
  upstream (trace (exec env (run truthy_kb files question1) w)) =
  upstream (trace (exec env (run truthy_kb files question2) w)).
Proof.
  intros H1 H2. apply truthy_str_true in H1, H2. unfold run.
  rewrite H1, H2.
  destruct (truthy_files files && (3 <? List.length (items files))%nat);
    [reflexivity |].
  destruct (truthy_files files); [| reflexivity].
  cbn [andb when bind]. rewrite !exec_bind. cbv zeta.
  destruct (exec env (for_in (items files) read_one "") w)
    as [[text | v] w1 tr]; [| reflexivity].
  cbn [exit world trace].
  destruct text as [| a text]; [reflexivity |].
  cbn [truthy_str negb when bind call].
  cbn [exec].
  destruct (env _ (split_text (String a text)) w1) as [chunks w2].
  destruct chunks as [| chunk chunks]; [reflexivity |].
  cbn [truthy_list negb when bind exec].
  destruct (env _ (create_embeddings (chunk :: chunks)) w2) as [kb w3].
  destruct (truthy_kb kb); [| reflexivity].
  cbn [negb when bind exec].
  destruct (env _ (get_relative_chunks kb question1) w3) as [docs1 w4].
  destruct (env _ (get_relative_chunks kb question2) w3) as [docs2 w4'].
  destruct docs1 as [| doc1 docs1], docs2 as [| doc2 docs2];
    cbn [truthy_list negb when bind exec];
    repeat match goal with
           | |- context [env ?X ?c ?w0] => destruct (env X c w0) as [? ?]
           end;
    cbn [exit world trace]; rewrite !upstream_app; reflexivity.
Qed.

(** X12: [run] never goes on with part of the files: when [split_text] is
    called, every file of the list has been read, in the list's order, every
    read gave text, and the text split is these texts one after the other. *)
Theorem run_splits_only_complete_text
  (files : Files) (user_question : string) (w : W) :
  let e := exec env (run truthy_kb files user_question) w in
  forall text chunks,
    In (EvSplitText text chunks) (trace e) ->
    files_read (trace e) = present (items files) /\
    (forall handler file text',
        In (EvReadFile handler file text') (trace e) -> text' <> "") /\
    text = join (texts_read (trace e)).
Proof.
  intros e text chunks Hin. subst e. revert Hin.
  run_cases files user_question w; intro Hin; in_trace;
    match goal with
    | HE : Extracts _ _ _ (Fell _) |- _ =>
        destruct (extracts_fell _ _ _ _ HE) as (Hall & Hfiles & Htext)
    end;
    unfold files_read, texts_read in *; rewrite reads_app; simpl;
    rewrite app_nil_r; simpl in Htext;
    (split; [exact Hfiles | split; [| exact Htext]]);
    intros handler file text' Hr;
    (apply in_app_or in Hr; destruct Hr as [Hr | Hr];
     [ rewrite Forall_forall in Hall; exact (Hall _ Hr) | in_trace ]).
Qed.

End Executions.

End Properties.

(** C1: on the success path (a non-empty question, 1 to 3 files of which
    every one read gives text, a split that gives chunks, a truthy knowledge
    base, a retrieval that gives docs), the last call of [run] is
    [run_chain] on the retrieved docs and the question, and [run] returns
    its answer as it is.  In particular, with two files read as "Alpha
    text." and "Beta text.", a splitter that gives these two chunks for the
    two texts together, a truthy knowledge base, a retrieval that gives both
    chunks for "What is Alpha?" and a chain that answers "Alpha is a
    thing.", [run] on the two files and "What is Alpha?" returns "Alpha is a
    thing.". *)
Theorem run_returns_chain_answer :
  (forall (Handler Chunk KnowledgeBase Doc : Type)
          (truthy_kb : KnowledgeBase -> bool) (W : Type)
          (env : Env Handler Chunk KnowledgeBase Doc W)
          (l : list (option UploadedFile)) (user_question : string) (w : W),
      user_question <> "" ->
      1 <= List.length l <= 3 ->
      (exists file, In (Some file) l) ->
      let e := exec env (run truthy_kb (Some l) user_question) w in
      (forall handler file text,
          In (EvReadFile handler file text) (trace e) -> text <> "") ->
      (forall text chunks,
          In (EvSplitText text chunks) (trace e) -> chunks <> []) ->
      (forall chunks knowledge_base,
          In (EvCreateEmbeddings chunks knowledge_base) (trace e) ->
          truthy_kb knowledge_base = true) ->
      (forall knowledge_base question docs,
          In (EvGetRelativeChunks knowledge_base question docs) (trace e) ->
          docs <> []) ->
      exists pre knowledge_base docs answer,
        trace e = pre ++ [EvGetRelativeChunks knowledge_base user_question docs;
                          EvRunChain docs user_question answer] /\
        ~ invoked RunChain pre /\
        value e = Some answer) /\
  (forall (Handler KnowledgeBase : Type)
          (truthy_kb : KnowledgeBase -> bool) (W : Type)
          (env : Env Handler string KnowledgeBase string W)
          (file_a file_b : UploadedFile) (w : W),
      (forall handler w', fst (env _ (read_file handler file_a) w') = "Alpha text.") ->
      (forall handler w', fst (env _ (read_file handler file_b) w') = "Beta text.") ->
      (forall w', fst (env _ (split_text "Alpha text.Beta text.") w')
                  = ["Alpha text."; "Beta text."]) ->
      (forall w',
          truthy_kb
            (fst (env _ (create_embeddings ["Alpha text."; "Beta text."]) w'))
          = true) ->
      (forall knowledge_base w',
          fst (env _ (get_relative_chunks knowledge_base "What is Alpha?") w')
          = ["Alpha text."; "Beta text."]) ->
      (forall w',
          fst (env _ (run_chain ["Alpha text."; "Beta text."] "What is Alpha?") w')
          = "Alpha is a thing.") ->
      value (exec env (run truthy_kb (Some [Some file_a; Some file_b])
                         "What is Alpha?") w)
      = Some "Alpha is a thing.").
Proof.
  split.
  - intros. now apply success_path.
  - intros Handler KnowledgeBase truthy_kb W env file_a file_b w
      Ha Hb Hsplit Hkb Hdocs Hanswer.
    unfold run, value. simpl.
    destruct (env _ (get_file_handler (type file_a)) w) as [h1 w1]. simpl.
    specialize (Ha h1 w1).
    destruct (env _ (read_file h1 file_a) w1) as [t1 w2]. simpl in Ha.
    subst t1. simpl.
    destruct (env _ (get_file_handler (type file_b)) w2) as [h2 w3]. simpl.
    specialize (Hb h2 w3).
    destruct (env _ (read_file h2 file_b) w3) as [t2 w4]. simpl in Hb.
    subst t2. simpl.
    specialize (Hsplit w4).
    destruct (env _ (split_text "Alpha text.Beta text.") w4) as [chunks w5].
    simpl in Hsplit. subst chunks. simpl.
    specialize (Hkb w5).
    destruct (env _ (create_embeddings ["Alpha text."; "Beta text."]) w5)
      as [kb w6].
    simpl in Hkb. simpl. rewrite Hkb. simpl.
    specialize (Hdocs kb w6).
    destruct (env _ (get_relative_chunks kb "What is Alpha?") w6)
      as [docs w7].
    simpl in Hdocs. subst docs. simpl.
    specialize (Hanswer w7).
    destruct (env _ (run_chain ["Alpha text."; "Beta text."] "What is Alpha?") w7)
      as [answer w8].
    simpl in Hanswer. subst answer. reflexivity.
Qed.

(** * The properties at the concrete collaborators *)

(** Settle what the events of a computed trace are. *)
Ltac computed_trace :=
  simpl; intros;
  repeat match goal with
         | H : _ \/ _ |- _ => destruct H as [H | H]
         | H : False |- _ => destruct H
         | H : @eq (Event _ _ _ _) _ _ |- _ =>
             first [ discriminate H | injection H; intros; subst; clear H ]
         end;
  try discriminate; auto.

Lemma run_returns_chain_answer_witness :
  let e := exec (pure_env Scenario.collaborators)
             (run Scenario.truthy_kb
                (Some [Some Scenario.alpha; Some Scenario.beta])
                "What is Alpha?") 0 in
  (exists pre knowledge_base docs answer,
      trace e = pre ++ [EvGetRelativeChunks knowledge_base "What is Alpha?" docs;
                        EvRunChain docs "What is Alpha?" answer] /\
      ~ invoked RunChain pre /\
      value e = Some answer) /\
  value e = Some "Alpha is a thing.".
Proof.
  split.
  - apply (proj1 run_returns_chain_answer).
    + discriminate.
    + simpl. lia.
    + exists Scenario.alpha. simpl. auto.
    + computed_trace.
    + computed_trace.
    + computed_trace.
    + computed_trace.
  - apply (proj2 run_returns_chain_answer); reflexivity.
Defined.

Lemma run_too_many_files_witness :
  let e := exec (pure_env Scenario.collaborators)
             (run Scenario.truthy_kb
                (Some [Some Scenario.alpha; None; Some Scenario.scan;
                       Some Scenario.beta])
                "What is Alpha?") 0 in
  value e = Some "Please upload a maximum of 3 files" /\
  trace e = [EvLogging WARNING "Please upload a maximum of 3 files"] /\
  ~ invoked GetFileHandler (trace e) /\
  ~ invoked ReadFile (trace e).
Proof.
  apply (run_too_many_files Scenario.truthy_kb
           (pure_env Scenario.collaborators)).
  simpl. lia.
Defined.

Lemma run_file_without_text_witness :
  let e := exec (pure_env Scenario.collaborators)
             (run Scenario.truthy_kb
                (Some [Some Scenario.alpha; Some Scenario.scan;
                       Some Scenario.beta])
                "What is Alpha?") 0 in
  value e =
    Some "No text could be extracted from scan.pdf. Please ensure the file is not encrypted or corrupted." /\
  files_read (trace e) = [Scenario.alpha; Scenario.scan] /\
  ~ invoked SplitText (trace e).
Proof.
  intro e.
  destruct (run_file_without_text Scenario.truthy_kb
              (pure_env Scenario.collaborators)
              [Some Scenario.alpha; Some Scenario.scan; Some Scenario.beta]
              "What is Alpha?" 0
              ltac:(discriminate) ltac:(simpl; lia)
              "application/pdf" Scenario.scan ltac:(simpl; auto))
    as (Hvalue & _ & _ & Hsplit & _).
  split; [exact Hvalue | split; [reflexivity | exact Hsplit]].
Defined.

Lemma run_falls_through_witness :
  let e := exec (pure_env Scenario.collaborators)
             (run Scenario.truthy_kb (Some [Some Scenario.alpha]) "") 0 in
  value e = None /\ trace e = [] /\ world e = 0.
Proof.
  apply (run_falls_through Scenario.truthy_kb
           (pure_env Scenario.collaborators)).
  - right. right. reflexivity.
  - simpl. lia.
Defined.

Lemma run_no_embeddings_witness :
  let e := exec (pure_env Scenario.no_embeddings)
             (run Scenario.truthy_kb
                (Some [Some Scenario.alpha; Some Scenario.beta])
                "What is Alpha?") 0 in
  value e = Some "Couldn't create embeddings from the text. Please try again." /\
  ~ invoked GetRelativeChunks (trace e) /\
  ~ invoked RunChain (trace e).
Proof.
  apply (run_no_embeddings Scenario.truthy_kb
           (pure_env Scenario.no_embeddings) _ _ 0
           ["Alpha text."; "Beta text."] []).
  - simpl. auto 10.
  - reflexivity.
Defined.

Lemma run_no_relevant_chunks_witness :
  let e := exec (pure_env Scenario.collaborators)
             (run Scenario.truthy_kb
                (Some [Some Scenario.alpha; Some Scenario.beta])
                "What is Gamma?") 0 in
  value e =
    Some "Couldn't find any relevant chunks for your question. Please try asking a different question." /\
  ~ invoked RunChain (trace e).
Proof.
  intro e.
  destruct (run_no_relevant_chunks Scenario.truthy_kb
              (pure_env Scenario.collaborators)
              (Some [Some Scenario.alpha; Some Scenario.beta])
              "What is Gamma?" 0
              ["Alpha text."; "Beta text."] "What is Gamma?"
              ltac:(simpl; auto 10))
    as (Hvalue & _ & _ & Hchain).
  split; [exact Hvalue | exact Hchain].
Defined.

Lemma run_no_chunks_witness :
  let e := exec (pure_env Scenario.collaborators)
             (run Scenario.truthy_kb (Some [Some Scenario.alpha])
                "What is Alpha?") 0 in
  value e =
    Some "Couldn't split the text into chunks. Please try again with different text." /\
  ~ invoked CreateEmbeddings (trace e) /\
  ~ invoked GetRelativeChunks (trace e) /\
  ~ invoked RunChain (trace e).
Proof.
  intro e.
  destruct (run_no_chunks Scenario.truthy_kb
              (pure_env Scenario.collaborators)
              (Some [Some Scenario.alpha]) "What is Alpha?" 0
              "Alpha text." ltac:(simpl; auto 10))
    as (Hvalue & _ & Hrest).
  split; [exact Hvalue | exact Hrest].
Defined.

Lemma run_combined_text_in_upload_order_witness :
  let e := exec (pure_env Scenario.collaborators)
             (run Scenario.truthy_kb
                (Some [Some Scenario.alpha; None; Some Scenario.beta])
                "What is Alpha?") 0 in
  files_read (trace e) = [Scenario.alpha; Scenario.beta] /\
  exists chunks, In (EvSplitText "Alpha text.Beta text." chunks) (trace e).
Proof.
  intro e.
  destruct (run_combined_text_in_upload_order Scenario.truthy_kb
              (pure_env Scenario.collaborators)
              [Some Scenario.alpha; None; Some Scenario.beta]
              "What is Alpha?" 0
              ltac:(discriminate) ltac:(simpl; lia) ltac:(computed_trace))
    as (Hfiles & _ & Hsplit).
  split; [exact Hfiles |].
  apply Hsplit. discriminate.
Defined.

Lemma run_idempotent_witness :
  let first := exec (pure_env Scenario.collaborators)
                 (run Scenario.truthy_kb
                    (Some [Some Scenario.alpha; Some Scenario.beta])
                    "What is Alpha?") 0 in
  let second := exec (pure_env Scenario.collaborators)
                 (run Scenario.truthy_kb
                    (Some [Some Scenario.alpha; Some Scenario.beta])
                    "What is Alpha?") (world first) in
  value second = value first /\ trace second = trace first.
Proof.
  apply (run_idempotent Scenario.truthy_kb (pure_env Scenario.collaborators)).
  intros X c w1 w2. reflexivity.
Defined.

Lemma run_no_text_branch_witness :
  let e := exec (pure_env Scenario.collaborators)
             (run Scenario.truthy_kb (Some [None; Some Scenario.alpha])
                "What is Alpha?") 0 in
  ~ In (EvLogging WARNING
          "No text could be extracted from the provided files. Please try again with different files.")
       (trace e) /\
  ((exists file',
       In (Some file') [None; Some Scenario.alpha] /\
       value e = Some (msg_no_text_file file')) \/
   (exists text chunks, text <> "" /\ In (EvSplitText text chunks) (trace e))).
Proof.
  intro e.
  destruct (proj2 (proj2 (run_no_text_branch Scenario.truthy_kb
                            (pure_env Scenario.collaborators)
                            (Some [None; Some Scenario.alpha])
                            "What is Alpha?" 0))
              Scenario.alpha ltac:(simpl; auto))
    as [Hbranch Hnext].
  split; [exact Hbranch |].
  apply Hnext; [discriminate | simpl; lia].
Defined.


(** ** The further properties at the concrete collaborators *)

Lemma run_logs_what_it_returns_witness :
  let e := exec (pure_env Scenario.collaborators)
             (run Scenario.truthy_kb (Some [Some Scenario.alpha])
                "What is Alpha?") 0 in
  exists pre,
    trace e = pre ++ [EvLogging WARNING msg_no_chunks] /\
    ~ invoked Logging pre /\
    value e = Some msg_no_chunks.
Proof.
  apply (run_logs_what_it_returns Scenario.truthy_kb
           (pure_env Scenario.collaborators)).
  simpl. auto 10.
Defined.

Lemma run_unlogged_return_is_answer_witness :
  let e := exec (pure_env Scenario.collaborators)
             (run Scenario.truthy_kb
                (Some [Some Scenario.alpha; Some Scenario.beta])
                "What is Alpha?") 0 in
  exists pre docs,
    trace e = pre ++ [EvRunChain docs "What is Alpha?" "Alpha is a thing."] /\
    ~ invoked RunChain pre.
Proof.
  apply (run_unlogged_return_is_answer Scenario.truthy_kb
           (pure_env Scenario.collaborators)).
  - reflexivity.
  - unfold invoked. simpl. intuition discriminate.
Defined.

Lemma run_returns_message_or_answer_witness :
  let e := exec (pure_env Scenario.collaborators)
             (run Scenario.truthy_kb
                (Some [Some Scenario.alpha; Some Scenario.scan])
                "What is Alpha?") 0 in
  let v := msg_no_text_file Scenario.scan in
  v = "Please upload a maximum of 3 files" \/
  (exists file,
      In (Some file) [Some Scenario.alpha; Some Scenario.scan] /\
      v = msg_no_text_file file) \/
  v = "No text could be extracted from the provided files. Please try again with different files." \/
  v = "Couldn't split the text into chunks. Please try again with different text." \/
  v = "Couldn't create embeddings from the text. Please try again." \/
  v = "Couldn't find any relevant chunks for your question. Please try asking a different question." \/
  (exists docs, In (EvRunChain docs "What is Alpha?" v) (trace e)).
Proof.
  apply (run_returns_message_or_answer Scenario.truthy_kb
           (pure_env Scenario.collaborators)
           (Some [Some Scenario.alpha; Some Scenario.scan])
           "What is Alpha?" 0).
  reflexivity.
Defined.

Lemma run_stages_chain_witness :
  let e := exec (pure_env Scenario.collaborators)
             (run Scenario.truthy_kb
                (Some [Some Scenario.alpha; Some Scenario.beta])
                "What is Alpha?") 0 in
  exists knowledge_base,
    In (EvGetRelativeChunks knowledge_base "What is Alpha?"
          ["Alpha text."; "Beta text."]) (trace e).
Proof.
  intro e.
  destruct (run_stages_chain Scenario.truthy_kb
              (pure_env Scenario.collaborators)
              (Some [Some Scenario.alpha; Some Scenario.beta])
              "What is Alpha?" 0)
    as (_ & _ & _ & Hchain).
  destruct (Hchain ["Alpha text."; "Beta text."] "What is Alpha?"
              "Alpha is a thing." ltac:(simpl; auto 10))
    as (_ & _ & Hdocs).
  exact Hdocs.
Defined.

Lemma run_calls_stage_at_most_once_witness :
  calls SplitText
    (trace (exec (pure_env Scenario.collaborators)
              (run Scenario.truthy_kb
                 (Some [Some Scenario.alpha; Some Scenario.beta])
                 "What is Alpha?") 0)) <= 1.
Proof.
  apply (run_calls_stage_at_most_once Scenario.truthy_kb
           (pure_env Scenario.collaborators)); discriminate.
Defined.

Lemma run_reads_with_handler_of_type_witness :
  let e := exec (pure_env Scenario.collaborators)
             (run Scenario.truthy_kb
                (Some [Some Scenario.alpha; Some Scenario.scan])
                "What is Alpha?") 0 in
  exists pre post,
    trace e = pre ++ EvGetFileHandler "application/pdf" "application/pdf"
                  :: EvReadFile "application/pdf" Scenario.scan "" :: post.
Proof.
  apply (run_reads_with_handler_of_type Scenario.truthy_kb
           (pure_env Scenario.collaborators)
           (Some [Some Scenario.alpha; Some Scenario.scan])
           "What is Alpha?" 0 "application/pdf" Scenario.scan "").
  simpl. auto 10.
Defined.

Lemma run_skips_none_witness :
  exec (pure_env Scenario.collaborators)
    (run Scenario.truthy_kb
       (Some [None; Some Scenario.alpha; Some Scenario.beta])
       "What is Alpha?") 0 =
  exec (pure_env Scenario.collaborators)
    (run Scenario.truthy_kb
       (Some [Some Scenario.alpha; Some Scenario.beta])
       "What is Alpha?") 0.
Proof.
  apply (run_skips_none Scenario.truthy_kb (pure_env Scenario.collaborators)
           [None; Some Scenario.alpha; Some Scenario.beta]).
  - simpl. lia.
  - discriminate.
Defined.

Lemma run_upstream_ignores_question_witness :
  upstream
    (trace (exec (pure_env Scenario.collaborators)
              (run Scenario.truthy_kb
                 (Some [Some Scenario.alpha; Some Scenario.beta])
                 "What is Alpha?") 0)) =
  upstream
    (trace (exec (pure_env Scenario.collaborators)
              (run Scenario.truthy_kb
                 (Some [Some Scenario.alpha; Some Scenario.beta])
                 "What is Gamma?") 0)).
Proof.
  apply (run_upstream_ignores_question Scenario.truthy_kb
           (pure_env Scenario.collaborators)); discriminate.
Defined.

Lemma run_splits_only_complete_text_witness :
  let e := exec (pure_env Scenario.collaborators)
             (run Scenario.truthy_kb
                (Some [Some Scenario.alpha; None; Some Scenario.beta])
                "What is Alpha?") 0 in
  files_read (trace e) = [Scenario.alpha; Scenario.beta] /\
  (forall handler file text',
      In (EvReadFile handler file text') (trace e) -> text' <> "") /\
  "Alpha text.Beta text." = join (texts_read (trace e)).
Proof.
  apply (run_splits_only_complete_text Scenario.truthy_kb
           (pure_env Scenario.collaborators)
           (Some [Some Scenario.alpha; None; Some Scenario.beta])
           "What is Alpha?" 0 "Alpha text.Beta text."
           ["Alpha text."; "Beta text."]).
  simpl. auto 10.
Defined.
